(** * PCA9685 16-servo driver with per-channel pulse limits

    A shallow embedding of [src/main.ts] (namespace [limits]) and the
    properties of its initialisation sequence, of [servoWrite] and of the
    register map.  The I2C bus, the display and the delay provider are
    external collaborators: every call to them is recorded, in program
    order, in a log carried by the program state, together with the
    assignments to the module-level flag [PCA9685_init]. *)

From Stdlib Require Import ZArith QArith Qround List Lia Lqa.
From stdpp Require Import base list gmap.

Local Open Scope Z_scope.

(** ** Register addresses (main.ts, lines 14-29) *)

Definition CHIP_ADDRESS : Z := 0x6A.
Definition REG_MODE1 : Z := 0x00.
Definition REG_MODE2 : Z := 0x01.
Definition REG_SUB_ADR1 : Z := 0x02.
Definition REG_SUB_ADR2 : Z := 0x03.
Definition REG_SUB_ADR3 : Z := 0x04.
Definition REG_ALL_CALL : Z := 0x05.
Definition REG_SERVO1_REG_BASE : Z := 0x06.

Definition REG_ALL_LED_ON_L : Z := 0xFA.
Definition REG_ALL_LED_ON_H : Z := 0xFB.
Definition REG_ALL_LED_OFF_L : Z := 0xFC.
Definition REG_ALL_LED_OFF_H : Z := 0xFD.
Definition REG_PRE_SCALE : Z := 0xFE.

Definition PWM_FREQUENCY : Z := 0x1E.

(** ** The enumerations (main.ts, lines 42-72) *)

Inductive Servos : Set :=
| Servo1 | Servo2 | Servo3 | Servo4 | Servo5 | Servo6 | Servo7 | Servo8
| Servo9 | Servo10 | Servo11 | Servo12 | Servo13 | Servo14 | Servo15
| Servo16.

(** The numeric value of an enumerator: a register offset in the chip. *)
Definition Servos_value (s : Servos) : Z :=
  match s with
  | Servo1 => 0x08 | Servo2 => 0x0C | Servo3 => 0x10 | Servo4 => 0x14
  | Servo5 => 0x18 | Servo6 => 0x1C | Servo7 => 0x20 | Servo8 => 0x24
  | Servo9 => 0x28 | Servo10 => 0x2C | Servo11 => 0x30 | Servo12 => 0x34
  | Servo13 => 0x38 | Servo14 => 0x3C | Servo15 => 0x40 | Servo16 => 0x44
  end.

(** Position of an enumerator in the declaration, counted from zero. *)
Definition Servos_index (s : Servos) : Z :=
  match s with
  | Servo1 => 0 | Servo2 => 1 | Servo3 => 2 | Servo4 => 3
  | Servo5 => 4 | Servo6 => 5 | Servo7 => 6 | Servo8 => 7
  | Servo9 => 8 | Servo10 => 9 | Servo11 => 10 | Servo12 => 11
  | Servo13 => 12 | Servo14 => 13 | Servo15 => 14 | Servo16 => 15
  end.

Definition all_Servos : list Servos :=
  [Servo1; Servo2; Servo3; Servo4; Servo5; Servo6; Servo7; Servo8;
   Servo9; Servo10; Servo11; Servo12; Servo13; Servo14; Servo15; Servo16].

Inductive BoardAddresses : Set := Board1.

Definition BoardAddresses_value (b : BoardAddresses) : Z :=
  match b with Board1 => 0x6A end.

Inductive PulseRange : Set :=
| R500_2500uS | R600_2400uS | R700_2300uS
| R800_2200uS | R900_2100uS | R1000_2000uS.

Definition PulseRange_value (r : PulseRange) : Z :=
  match r with
  | R500_2500uS => 1 | R600_2400uS => 2 | R700_2300uS => 3
  | R800_2200uS => 4 | R900_2100uS => 5 | R1000_2000uS => 6
  end.

Definition all_PulseRange : list PulseRange :=
  [R500_2500uS; R600_2400uS; R700_2300uS;
   R800_2200uS; R900_2100uS; R1000_2000uS].

(** The register block of a channel.  The enumerator is the address of the
    channel's off-low register (the disabled body of [servoWrite] writes the
    pulse end to [Servo] and [Servo + 1]); the on-low and on-high registers
    are the two addresses below it, so that the block of [Servo1] starts at
    [REG_SERVO1_REG_BASE]. *)
Record channel_registers := {
  on_low : Z;
  on_high : Z;
  off_low : Z;
  off_high : Z
}.

Definition registers_of (s : Servos) : channel_registers :=
  {| on_low := Servos_value s - 2;
     on_high := Servos_value s - 1;
     off_low := Servos_value s;
     off_high := Servos_value s + 1 |}.

Definition register_list (r : channel_registers) : list Z :=
  [on_low r; on_high r; off_low r; off_high r].

(** ** The effect log *)

(** A [Buffer] of the host runtime: unsigned bytes, fixed length. *)
Definition Buffer := list Z.

Inductive event : Type :=
| I2cWriteBuffer (address : Z) (buf : Buffer) (repeated : bool)
| I2cWriteNumber (address : Z) (value : Z)
| I2cReadNumber (address : Z) (value : Z)
| ShowNumber (value : Z)
| Pause (ms : Z)
| AssignInit (b : bool).

(** Program state: the module-level flag (main.ts, line 39) and the log of
    the effects performed so far, oldest first. *)
Record state := {
  PCA9685_init : bool;
  trace : list event
}.

(** The state when the module is loaded: [let PCA9685_init = false]. *)
Definition startup : state := {| PCA9685_init := false; trace := [] |}.

(** ** A state monad for the statements of the driver *)

Definition M (A : Type) : Type := state -> A * state.

Definition ret {A} (a : A) : M A := fun st => (a, st).

Definition bind {A B} (m : M A) (k : A -> M B) : M B :=
  fun st => let (a, st') := m st in k a st'.

Declare Scope driver_scope.
Delimit Scope driver_scope with driver.
Notation "x <- m ;; k" := (bind m (fun x => k))
  (at level 100, m at next level, right associativity) : driver_scope.
Notation "m ;;; k" := (bind m (fun _ => k))
  (at level 100, right associativity) : driver_scope.

Definition emit (e : event) : M unit :=
  fun st => (tt, {| PCA9685_init := PCA9685_init st;
                    trace := trace st ++ [e] |}).

Definition exec {A} (m : M A) (st : state) : state := snd (m st).

(** [pins.createBuffer(n)]: [n] zero bytes. *)
Definition createBuffer (n : nat) : Buffer := replicate n 0.

(** [buf[i] = v]: the element is stored as an unsigned byte; the two indices
    the driver uses are inside the buffer. *)
Definition setByte (buf : Buffer) (i : nat) (v : Z) : Buffer :=
  <[i := v mod 256]> buf.

Section Driver.

(** The chip's answer to a one-byte read, as a function of everything that
    happened on the bus before. *)
Variable device : list event -> Z.

Definition i2cWriteBuffer (address : Z) (buf : Buffer) (repeated : bool)
  : M unit :=
  emit (I2cWriteBuffer address buf repeated).

(** [pins.i2cWriteNumber(addr, value, NumberFormat.UInt8LE)] *)
Definition i2cWriteNumber (address value : Z) : M unit :=
  emit (I2cWriteNumber address (value mod 256)).

(** [pins.i2cReadNumber(addr, NumberFormat.UInt8LE)] *)
Definition i2cReadNumber (address : Z) : M Z :=
  fun st =>
    let v := device (trace st) mod 256 in
    (v, {| PCA9685_init := PCA9685_init st;
           trace := trace st ++ [I2cReadNumber address v] |}).

Definition showNumber (v : Z) : M unit := emit (ShowNumber v).

Definition pause (ms : Z) : M unit := emit (Pause ms).

(** [PCA9685_init = b] *)
Definition assign_PCA9685_init (b : bool) : M unit :=
  fun st => (tt, {| PCA9685_init := b;
                    trace := trace st ++ [AssignInit b] |}).

Local Open Scope driver_scope.

(** main.ts, lines 111-114 *)
Definition readReg (addr reg : Z) : M Z :=
  i2cWriteNumber addr reg ;;;
  i2cReadNumber addr.

(** main.ts, lines 128-152 *)
Definition initialisation : M unit :=
  let buf := createBuffer 2 in
  let buf := setByte buf 0 REG_PRE_SCALE in
  let buf := setByte buf 1 PWM_FREQUENCY in
  i2cWriteBuffer CHIP_ADDRESS buf false ;;;
  data <- readReg CHIP_ADDRESS REG_PRE_SCALE ;;
  showNumber data ;;;
  let buf := setByte buf 0 REG_ALL_LED_ON_L in
  let buf := setByte buf 1 0x00 in
  i2cWriteBuffer CHIP_ADDRESS buf false ;;;
  let buf := setByte buf 0 REG_ALL_LED_ON_H in
  let buf := setByte buf 1 0x00 in
  i2cWriteBuffer CHIP_ADDRESS buf false ;;;
  let buf := setByte buf 0 REG_ALL_LED_OFF_L in
  let buf := setByte buf 1 0x23 in
  i2cWriteBuffer CHIP_ADDRESS buf false ;;;
  let buf := setByte buf 0 REG_ALL_LED_OFF_H in
  let buf := setByte buf 1 0x01 in
  i2cWriteBuffer CHIP_ADDRESS buf false ;;;
  let buf := setByte buf 0 REG_MODE1 in
  let buf := setByte buf 1 0x01 in
  i2cWriteBuffer CHIP_ADDRESS buf false ;;;
  pause 10 ;;;
  assign_PCA9685_init true.

(** main.ts, lines 165-193.  Everything after the test of the flag is
    inside a comment in the source, so the function ends there. *)
Definition servoWrite (Servo : Servos) (degrees : Q) : M unit :=
  fun st =>
    if Bool.eqb (PCA9685_init st) false
    then initialisation st
    else ret tt st.

(** A sequence of calls, first call first. *)
Fixpoint run (calls : list (Servos * Q)) (st : state) : state :=
  match calls with
  | [] => st
  | (s, d) :: rest => run rest (exec (servoWrite s d) st)
  end.

End Driver.

(** ** Reading the effect log *)

(** The register a bus write transaction addresses: the first byte of the
    buffer sent to the chip. *)
Definition write_target (e : event) : option Z :=
  match e with
  | I2cWriteBuffer _ (r :: _) _ => Some r
  | _ => None
  end.

(** The data byte of a two-byte register write. *)
Definition write_data (e : event) : option Z :=
  match e with
  | I2cWriteBuffer _ (_ :: v :: _) _ => Some v
  | _ => None
  end.

Definition targets (reg : Z) (e : event) : bool :=
  match write_target e with
  | Some r => r =? reg
  | None => false
  end.

(** The data bytes written to register [reg], oldest first. *)
Definition writes_to (reg : Z) (tr : list event) : list Z :=
  omap write_data (List.filter (targets reg) tr).

(** A write transaction that addresses one of the four registers of one of
    the sixteen channels. *)
Definition is_channel_write (e : event) : bool :=
  existsb (fun s => existsb (fun r => targets r e)
                            (register_list (registers_of s)))
          all_Servos.

Definition channel_writes (tr : list event) : list event :=
  List.filter is_channel_write tr.

Definition is_flag_assignment (e : event) : bool :=
  match e with AssignInit true => true | _ => false end.

(** The 12-bit count held by a low/high register pair after the writes in
    the log: the last byte written to each, high byte shifted by eight. *)
Definition programmed_count (lo hi : Z) (tr : list event) : option Z :=
  match last (writes_to lo tr), last (writes_to hi tr) with
  | Some l, Some h => Some (Z.lor (Z.shiftl h 8) l)
  | _, _ => None
  end.

(** The effects of one run of [initialisation], in program order, when the
    chip answers [data] to the read-back of the pre-scaler. *)
Definition initialisation_events (data : Z) : list event :=
  [ I2cWriteBuffer CHIP_ADDRESS [REG_PRE_SCALE; PWM_FREQUENCY] false;
    I2cWriteNumber CHIP_ADDRESS REG_PRE_SCALE;
    I2cReadNumber CHIP_ADDRESS data;
    ShowNumber data;
    I2cWriteBuffer CHIP_ADDRESS [REG_ALL_LED_ON_L; 0x00] false;
    I2cWriteBuffer CHIP_ADDRESS [REG_ALL_LED_ON_H; 0x00] false;
    I2cWriteBuffer CHIP_ADDRESS [REG_ALL_LED_OFF_L; 0x23] false;
    I2cWriteBuffer CHIP_ADDRESS [REG_ALL_LED_OFF_H; 0x01] false;
    I2cWriteBuffer CHIP_ADDRESS [REG_MODE1; 0x01] false;
    Pause 10;
    AssignInit true ].

(** The byte the chip returns to the read-back issued by [initialisation]
    when it starts with log [tr]. *)
Definition readback (device : list event -> Z) (tr : list event) : Z :=
  device (tr ++ [I2cWriteBuffer CHIP_ADDRESS [REG_PRE_SCALE; PWM_FREQUENCY]
                                false;
                 I2cWriteNumber CHIP_ADDRESS REG_PRE_SCALE]) mod 256.

(** ** Pulse profiles and the angle encoder *)

(** Modelled from the spec: the two bounds carried by a pulse profile
    (sections 3 and 6).  The source declares the six enumerators of
    [PulseRange] and states the ranges in its header comment, but defines no
    bounds and no function that uses them. *)
Record PulseProfile := {
  minPulseUs : Z;
  maxPulseUs : Z
}.

(** Modelled from the spec: the bounds of the six ranges, as named by the
    enumerators (section 6). *)
Definition profile_of (r : PulseRange) : PulseProfile :=
  match r with
  | R500_2500uS => {| minPulseUs := 500; maxPulseUs := 2500 |}
  | R600_2400uS => {| minPulseUs := 600; maxPulseUs := 2400 |}
  | R700_2300uS => {| minPulseUs := 700; maxPulseUs := 2300 |}
  | R800_2200uS => {| minPulseUs := 800; maxPulseUs := 2200 |}
  | R900_2100uS => {| minPulseUs := 900; maxPulseUs := 2100 |}
  | R1000_2000uS => {| minPulseUs := 1000; maxPulseUs := 2000 |}
  end.

(** Modelled from the spec: the invariant of a profile (section 3). *)
Definition within_bounds (P : PulseProfile) : Prop :=
  500 <= minPulseUs P <= 2500 /\ 500 <= maxPulseUs P <= 2500.

Definition valid_profile (P : PulseProfile) : Prop :=
  minPulseUs P < maxPulseUs P /\ within_bounds P.

(** Modelled from the spec: [countsPerUs = 4096 / 20000] (section 4.4). *)
Definition countsPerUs : Q := 4096 # 20000.

(** Modelled from the spec: the clamp of the angle to [[0, 180]], the first
    step of the encoder (section 4.4). *)
Definition clamp_angle (angleDegrees : Q) : Q :=
  if Qle_bool angleDegrees 0 then 0%Q
  else if Qle_bool 180 angleDegrees then 180%Q
  else angleDegrees.

(** Modelled from the spec: the linear interpolation of the pulse width,
    [minPulseUs + (angleDegrees / 180) * (maxPulseUs - minPulseUs)]. *)
Definition pulseUs (angleDegrees : Q) (P : PulseProfile) : Q :=
  (inject_Z (minPulseUs P)
   + (clamp_angle angleDegrees / 180)
     * (inject_Z (maxPulseUs P) - inject_Z (minPulseUs P)))%Q.

(** Modelled from the spec: the angle encoder of section 4.4, which the
    source does not contain (the only arithmetic on the angle is in the
    disabled body of [servoWrite]).  Numbers are exact rationals. *)
Definition encode (angleDegrees : Q) (P : PulseProfile) : Z :=
  Qfloor (pulseUs angleDegrees P * countsPerUs).

(** ** Per-channel configuration *)

(** Modelled from the spec: the controller state of sections 3 and 4.5, the
    chip state together with the profile recorded for each channel, keyed by
    the channel's enumerator value.  The source has no such association. *)
Record controller := {
  chip : state;
  profiles : gmap Z PulseRange
}.

(** Modelled from the spec: the default profile of a channel (section 3). *)
Definition default_profile : PulseRange := R1000_2000uS.

(** Modelled from the spec: step 2 of [writeAngle] (section 4.5). *)
Definition profile_for (c : controller) (channel : Servos) : PulseRange :=
  default default_profile (profiles c !! Servos_value channel).

(** Modelled from the spec: [setPulseProfile(channel, profile)] of section
    4.5, which the source does not define. *)
Definition setPulseProfile (channel : Servos) (profile : PulseRange)
    (c : controller) : controller :=
  {| chip := chip c;
     profiles := <[Servos_value channel := profile]> (profiles c) |}.

Definition new_controller : controller :=
  {| chip := startup; profiles := ∅ |}.

(** A chip that answers every read with the pre-scaler value it was sent. *)
Definition sample_device : list event -> Z := fun _ => PWM_FREQUENCY.

(** ** Further readings of the log *)

(** A buffer write, [pins.i2cWriteBuffer].  The one-byte register select
    of [readReg] is an [I2cWriteNumber] event and is not a buffer write. *)
Definition is_bus_write (e : event) : bool :=
  match e with I2cWriteBuffer _ _ _ => true | _ => false end.

(** The buffer writes of a log, oldest first. *)
Definition bus_writes (tr : list event) : list event :=
  List.filter is_bus_write tr.

(** Everything a log sends to the chip: buffer writes and one-byte
    writes alike. *)
Definition is_sent_to_chip (e : event) : bool :=
  match e with
  | I2cWriteBuffer _ _ _ | I2cWriteNumber _ _ => true
  | _ => false
  end.

Definition sent_to_chip (tr : list event) : list event :=
  List.filter is_sent_to_chip tr.

(** An effect with the chip's answer blanked: the value of a read and the
    value displayed become 0, every other effect is kept as it is. *)
Definition mask_answer (e : event) : event :=
  match e with
  | I2cReadNumber a _ => I2cReadNumber a 0
  | ShowNumber _ => ShowNumber 0
  | _ => e
  end.

(** The values read from the chip, oldest first. *)
Definition read_values (tr : list event) : list Z :=
  omap (fun e => match e with I2cReadNumber _ v => Some v | _ => None end)
       tr.

(** The values sent to the display, oldest first. *)
Definition shown_values (tr : list event) : list Z :=
  omap (fun e => match e with ShowNumber v => Some v | _ => None end) tr.

Definition is_byte (v : Z) : bool := (0 <=? v) && (v <? 256).

(** The registers [initialisation] writes. *)
Definition initialisation_registers : list Z :=
  [REG_PRE_SCALE; REG_ALL_LED_ON_L; REG_ALL_LED_ON_H;
   REG_ALL_LED_OFF_L; REG_ALL_LED_OFF_H; REG_MODE1].

(** The registers the source names that [initialisation] leaves alone. *)
Definition untouched_registers : list Z :=
  [REG_MODE2; REG_SUB_ADR1; REG_SUB_ADR2; REG_SUB_ADR3; REG_ALL_CALL].

(** The shape of every effect the driver performs: bus traffic goes to the
    one chip address, a buffer write is a register number from
    [initialisation_registers] followed by one data byte, the only register
    selected for reading is the pre-scaler, values read and displayed are
    bytes, the only pause is 10 ms, and the flag is only ever assigned
    [true]. *)
Definition well_formed_event (e : event) : bool :=
  match e with
  | I2cWriteBuffer a [r; v] repeated =>
      (a =? CHIP_ADDRESS) && negb repeated
      && existsb (Z.eqb r) initialisation_registers && is_byte v
  | I2cWriteBuffer _ _ _ => false
  | I2cWriteNumber a v => (a =? CHIP_ADDRESS) && (v =? REG_PRE_SCALE)
  | I2cReadNumber a v => (a =? CHIP_ADDRESS) && is_byte v
  | ShowNumber v => is_byte v
  | Pause ms => ms =? 10
  | AssignInit b => b
  end.

(** ** The angle write of the spec, for comparison with [servoWrite] *)

(** Modelled from the spec: [writeAngle(channel, angleDegrees)] of section
    4.5, written after the spec's five steps.  Its counterpart in the
    source is [servoWrite], which stops after the first step; this
    definition is not taken from the source and serves only to say what
    clamping an angle means.  Step 1 runs the source's [initialisation]. *)
Definition writeAngle (device : list event -> Z)
    (channel : Servos) (angleDegrees : Q) (c : controller) : controller :=
  let st := if Bool.eqb (PCA9685_init (chip c)) false
            then exec (initialisation device) (chip c)
            else chip c in
  let profile := profile_of (profile_for c channel) in
  let rawCount := encode angleDegrees profile in
  let low := Z.land rawCount 0xFF in
  let high := Z.shiftr rawCount 8 in
  let regs := registers_of channel in
  let st := exec (i2cWriteBuffer CHIP_ADDRESS [off_low regs; low] false)
                 st in
  let st := exec (i2cWriteBuffer CHIP_ADDRESS [off_high regs; high] false)
                 st in
  {| chip := st; profiles := profiles c |}.

(** Following the spec's words (sections 4.4 and 7, clamp to the nearest
    bound): an angle-write operation clamps out-of-range angles at state
    [s] when it treats -10 as the bound 0 and 200 as the bound 180, each
    angle going to its own nearest bound, so that an angle below the range
    and one above it are not treated alike. *)
Definition clamps_out_of_range {S : Type} (op : Q -> S -> S) (s : S)
  : Prop :=
  op (-10 # 1) s = op 0%Q s /\
  op (200 # 1) s = op (180 # 1) s /\
  op (-10 # 1) s <> op (200 # 1) s.

(** The register constants the source names (main.ts, lines 15-27). *)
Definition named_registers : list Z :=
  [REG_MODE1; REG_MODE2; REG_SUB_ADR1; REG_SUB_ADR2; REG_SUB_ADR3;
   REG_ALL_CALL; REG_ALL_LED_ON_L; REG_ALL_LED_ON_H; REG_ALL_LED_OFF_L;
   REG_ALL_LED_OFF_H; REG_PRE_SCALE].

(** * Properties of the driver *)

(** ** The initialisation sequence *)

Lemma initialisation_spec device st :
  initialisation device st =
  (tt, {| PCA9685_init := true;
          trace := trace st
                   ++ initialisation_events (readback device (trace st)) |}).
Proof.
  unfold initialisation, readReg, bind, i2cWriteBuffer, i2cWriteNumber,
    i2cReadNumber, showNumber, pause, emit, assign_PCA9685_init, readback.
  cbn [trace PCA9685_init].
  repeat rewrite <- app_assoc.
  reflexivity.
Qed.

Lemma servoWrite_uninitialised device s d st :
  PCA9685_init st = false ->
  servoWrite device s d st = initialisation device st.
Proof. intros H. unfold servoWrite. rewrite H. reflexivity. Qed.

Lemma servoWrite_ready device s d st :
  PCA9685_init st = true -> servoWrite device s d st = (tt, st).
Proof. intros H. unfold servoWrite. rewrite H. reflexivity. Qed.

Lemma servoWrite_sets_flag device s d st :
  PCA9685_init (exec (servoWrite device s d) st) = true.
Proof.
  unfold exec. destruct (PCA9685_init st) eqn:E.
  - rewrite servoWrite_ready by assumption. exact E.
  - rewrite servoWrite_uninitialised, initialisation_spec by assumption.
    reflexivity.
Qed.

Lemma run_ready device calls : forall st,
  PCA9685_init st = true -> run device calls st = st.
Proof.
  induction calls as [|[s d] rest IH]; intros st H; cbn [run].
  - reflexivity.
  - unfold exec. rewrite servoWrite_ready by assumption. apply IH, H.
Qed.

Lemma run_startup device c rest :
  run device (c :: rest) startup =
  {| PCA9685_init := true;
     trace := initialisation_events (readback device []) |}.
Proof.
  destruct c as [s d]. cbn [run]. unfold exec.
  rewrite servoWrite_uninitialised, initialisation_spec by reflexivity.
  apply run_ready. reflexivity.
Qed.

Lemma initialisation_events_no_channel_write data :
  channel_writes (initialisation_events data) = [].
Proof. reflexivity. Qed.

(** C4.  [initialisation] performs its steps in this order: the write of
    the pre-scaler register, the read-back of the pre-scaler and its
    display, the two broadcast on registers written with zero, the two
    broadcast off registers, the mode register, a pause of 10 ms, and only
    after all of these the assignment that makes the flag true. *)
Theorem initialisation_order (device : list event -> Z) (st : state) :
  let data := readback device (trace st) in
  exec (initialisation device) st =
  {| PCA9685_init := true;
     trace := trace st ++
       [ I2cWriteBuffer CHIP_ADDRESS [REG_PRE_SCALE; PWM_FREQUENCY] false;
         I2cWriteNumber CHIP_ADDRESS REG_PRE_SCALE;
         I2cReadNumber CHIP_ADDRESS data;
         ShowNumber data;
         I2cWriteBuffer CHIP_ADDRESS [REG_ALL_LED_ON_L; 0] false;
         I2cWriteBuffer CHIP_ADDRESS [REG_ALL_LED_ON_H; 0] false;
         I2cWriteBuffer CHIP_ADDRESS [REG_ALL_LED_OFF_L; 0x23] false;
         I2cWriteBuffer CHIP_ADDRESS [REG_ALL_LED_OFF_H; 0x01] false;
         I2cWriteBuffer CHIP_ADDRESS [REG_MODE1; 1] false;
         Pause 10;
         AssignInit true ] |}.
Proof.
  intros data. unfold exec. rewrite initialisation_spec. reflexivity.
Qed.

(** C3.  The flag is false at startup; a call to [servoWrite] leaves it
    true, and on a state where it is already true the call changes nothing,
    so the flag never goes back to false and nothing is initialised again.
    After any non-empty sequence of calls from startup the log is exactly
    one run of the initialisation: one assignment of the flag, one write of
    the pre-scaler register and one write of each of the four broadcast
    registers, all of them before any channel-specific write. *)
Theorem initialisation_runs_exactly_once (device : list event -> Z) :
  PCA9685_init startup = false /\
  (forall st s d, PCA9685_init (exec (servoWrite device s d) st) = true) /\
  (forall st s d, PCA9685_init st = true ->
     exec (servoWrite device s d) st = st) /\
  (forall calls, calls <> [] ->
     let st := run device calls startup in
     PCA9685_init st = true /\
     trace st = initialisation_events (readback device []) /\
     length (List.filter is_flag_assignment (trace st)) = 1%nat /\
     writes_to REG_PRE_SCALE (trace st) = [PWM_FREQUENCY] /\
     length (writes_to REG_ALL_LED_ON_L (trace st)) = 1%nat /\
     length (writes_to REG_ALL_LED_ON_H (trace st)) = 1%nat /\
     length (writes_to REG_ALL_LED_OFF_L (trace st)) = 1%nat /\
     length (writes_to REG_ALL_LED_OFF_H (trace st)) = 1%nat /\
     (forall pre e post,
        trace st = pre ++ e :: post -> is_channel_write e = true ->
        Forall (fun reg => length (writes_to reg pre) = 1%nat)
          [REG_PRE_SCALE; REG_ALL_LED_ON_L; REG_ALL_LED_ON_H;
           REG_ALL_LED_OFF_L; REG_ALL_LED_OFF_H])).
Proof.
  split; [reflexivity|].
  split; [intros; apply servoWrite_sets_flag|].
  split.
  { intros st s d H. unfold exec. rewrite servoWrite_ready by assumption.
    reflexivity. }
  intros [|c rest] Hne; [congruence|]. cbv zeta.
  rewrite run_startup. cbn [PCA9685_init trace].
  repeat (split; [reflexivity|]).
  intros pre e post Heq He. exfalso.
  assert (Hin : In e (channel_writes
                        (initialisation_events (readback device [])))).
  { unfold channel_writes. apply List.filter_In. split; [|exact He].
    rewrite Heq. apply in_or_app. right. left. reflexivity. }
  rewrite initialisation_events_no_channel_write in Hin. destruct Hin.
Qed.

Lemma initialisation_runs_exactly_once_witness :
  [(Servo1, 90%Q); (Servo2, 0%Q); (Servo1, 45%Q)] <> [] /\
  trace (run sample_device
           [(Servo1, 90%Q); (Servo2, 0%Q); (Servo1, 45%Q)] startup)
  = initialisation_events PWM_FREQUENCY.
Proof.
  assert (Hne : [(Servo1, 90%Q); (Servo2, 0%Q); (Servo1, 45%Q)] <> [])
    by discriminate.
  split; [exact Hne|].
  destruct (initialisation_runs_exactly_once sample_device)
    as (_ & _ & _ & H).
  destruct (H _ Hne) as (_ & Htr & _). exact Htr.
Defined.

(** C5.  Once the flag is true, [servoWrite] does nothing at all, for every
    channel and every angle: the state, log included, is returned as it
    was, and the angle plays no part in the result. *)
Theorem servoWrite_noop_when_initialised
    (device : list event -> Z) (st : state) (Servo : Servos) (degrees : Q) :
  PCA9685_init st = true ->
  servoWrite device Servo degrees st = (tt, st) /\
  trace (exec (servoWrite device Servo degrees) st) = trace st /\
  (forall Servo' degrees',
     servoWrite device Servo' degrees' st
     = servoWrite device Servo degrees st).
Proof.
  intros H. rewrite servoWrite_ready by assumption.
  split; [reflexivity|]. split.
  - unfold exec. rewrite servoWrite_ready by assumption. reflexivity.
  - intros. apply servoWrite_ready, H.
Qed.

Lemma servoWrite_noop_when_initialised_witness :
  PCA9685_init (exec (servoWrite sample_device Servo1 90) startup) = true /\
  servoWrite sample_device Servo7 135
    (exec (servoWrite sample_device Servo1 90) startup)
  = (tt, exec (servoWrite sample_device Servo1 90) startup).
Proof.
  assert (Hready :
    PCA9685_init (exec (servoWrite sample_device Servo1 90) startup) = true)
    by reflexivity.
  split; [exact Hready|].
  exact (proj1 (servoWrite_noop_when_initialised sample_device _ Servo7 135
                  Hready)).
Defined.

(** The angle write of the spec does clamp, for every channel, profile
    and state: -10 goes to the count of angle 0, 200 to the count of angle
    180, and the two counts differ in at least one of the two bytes
    written. *)
Lemma writeAngle_clamps_out_of_range device channel c :
  clamps_out_of_range (writeAngle device channel) c.
Proof.
  split; [reflexivity|]. split; [reflexivity|].
  unfold writeAngle. intros H.
  apply (f_equal (fun c' => trace (chip c'))) in H.
  unfold exec, i2cWriteBuffer, emit in H. cbn [snd trace chip] in H.
  apply app_inj_tail in H as [H Hhigh].
  apply app_inj_tail in H as [_ Hlow].
  destruct (profile_for c channel);
    vm_compute in Hlow; vm_compute in Hhigh; discriminate.
Qed.



(** C1 (the code departs from it).  On an initialised chip,
    [servoWrite Servo1 90] adds nothing to the log: no write reaches the
    off-low or off-high register of the channel, where two are required. *)
Theorem servoWrite_issues_no_channel_write :
  let ready := exec (servoWrite sample_device Servo1 (90 # 1)) startup in
  let after := exec (servoWrite sample_device Servo1 (90 # 1)) ready in
  PCA9685_init ready = true /\
  trace after = trace ready /\
  writes_to (off_low (registers_of Servo1)) (trace after) = [] /\
  writes_to (off_high (registers_of Servo1)) (trace after) = [] /\
  length (channel_writes (trace after)) = 0%nat /\
  length (channel_writes (trace after)) <> 2%nat.
Proof. cbv zeta. repeat split; try reflexivity. discriminate. Qed.

(** C2 (the code departs from it).  [initialisation] writes 0x23, not 0x33,
    to the broadcast off-low register; with 0x01 in the off-high register
    the count programmed for all channels is 0x123 = 291, not 307. *)
Theorem initialisation_broadcast_off_count (device : list event -> Z) :
  let tr := trace (exec (initialisation device) startup) in
  writes_to REG_ALL_LED_OFF_L tr = [0x23] /\
  writes_to REG_ALL_LED_OFF_H tr = [0x01] /\
  programmed_count REG_ALL_LED_OFF_L REG_ALL_LED_OFF_H tr = Some 291 /\
  programmed_count REG_ALL_LED_OFF_L REG_ALL_LED_OFF_H tr <> Some 307 /\
  writes_to REG_ALL_LED_OFF_L tr <> [0x33].
Proof. cbv zeta. repeat split; try reflexivity; discriminate. Qed.

(** ** The register map *)

Lemma Servos_value_stride s : Servos_value s = 0x08 + 4 * Servos_index s.
Proof. destruct s; reflexivity. Qed.

Lemma Servos_index_range s : 0 <= Servos_index s < 16.
Proof. destruct s; cbn; lia. Qed.

Lemma Servos_index_inj s1 s2 : Servos_index s1 = Servos_index s2 -> s1 = s2.
Proof. destruct s1, s2; intros H; try reflexivity; discriminate H. Qed.

Lemma Servos_value_inj s1 s2 : Servos_value s1 = Servos_value s2 -> s1 = s2.
Proof.
  rewrite !Servos_value_stride. intros H. apply Servos_index_inj. lia.
Qed.

Lemma register_list_bounds s r :
  In r (register_list (registers_of s)) ->
  REG_SERVO1_REG_BASE + 4 * Servos_index s <= r
  < REG_SERVO1_REG_BASE + 4 * Servos_index s + 4.
Proof.
  unfold register_list, registers_of, REG_SERVO1_REG_BASE.
  cbn [on_low on_high off_low off_high In].
  rewrite Servos_value_stride. lia.
Qed.

(** C9.  The map from the sixteen channels to register addresses is total
    and injective: the enumeration has exactly sixteen members, the four
    registers of a channel sit at a constant base plus four times the
    channel's position, and a register belongs to one channel only. *)
Theorem channel_register_map_total_injective :
  (forall s, In s all_Servos) /\
  length all_Servos = 16%nat /\
  (forall s,
     0 <= Servos_index s < 16 /\
     Servos_value s = 0x08 + 4 * Servos_index s /\
     register_list (registers_of s) =
       map (fun k => REG_SERVO1_REG_BASE + 4 * Servos_index s + k)
           [0; 1; 2; 3]) /\
  (forall s1 s2, Servos_value s1 = Servos_value s2 -> s1 = s2) /\
  (forall s1 s2, registers_of s1 = registers_of s2 -> s1 = s2) /\
  (forall s1 s2 r,
     In r (register_list (registers_of s1)) ->
     In r (register_list (registers_of s2)) -> s1 = s2).
Proof.
  split; [intros s; destruct s; cbn; tauto|].
  split; [reflexivity|].
  split; [intros s; destruct s; cbn; repeat split; lia|].
  split; [exact Servos_value_inj|].
  split.
  - intros s1 s2 H. apply Servos_value_inj.
    change (off_low (registers_of s1) = off_low (registers_of s2)).
    rewrite H. reflexivity.
  - intros s1 s2 r H1 H2.
    apply register_list_bounds in H1. apply register_list_bounds in H2.
    apply Servos_index_inj. lia.
Qed.

Lemma channel_register_map_witness :
  In 0x11 (register_list (registers_of Servo3)) /\
  (forall s, In 0x11 (register_list (registers_of s)) -> s = Servo3).
Proof.
  assert (H0 : In 0x11 (register_list (registers_of Servo3)))
    by (cbn; tauto).
  split; [exact H0|].
  intros s Hs.
  destruct channel_register_map_total_injective as (_ & _ & _ & _ & _ & H).
  exact (H s Servo3 0x11 Hs H0).
Defined.

(** ** The angle encoder *)

Lemma clamp_angle_range a : (0 <= clamp_angle a <= 180)%Q.
Proof.
  unfold clamp_angle.
  destruct (Qle_bool a 0) eqn:E0; [split; [apply Qle_refl|discriminate]|].
  destruct (Qle_bool 180 a) eqn:E1; [split; [discriminate|apply Qle_refl]|].
  split.
  - apply Qlt_le_weak, Qnot_le_lt. intros H.
    apply Qle_bool_iff in H. congruence.
  - apply Qlt_le_weak, Qnot_le_lt. intros H.
    apply Qle_bool_iff in H. congruence.
Qed.

Lemma clamp_angle_in_range a : (0 <= a <= 180)%Q -> (clamp_angle a == a)%Q.
Proof.
  intros [H0 H1]. unfold clamp_angle.
  destruct (Qle_bool a 0) eqn:E0.
  - apply Qle_bool_iff in E0. apply Qle_antisym; assumption.
  - destruct (Qle_bool 180 a) eqn:E1; [|reflexivity].
    apply Qle_bool_iff in E1. apply Qle_antisym; assumption.
Qed.

Lemma clamp_angle_mono a b : (a <= b)%Q -> (clamp_angle a <= clamp_angle b)%Q.
Proof.
  intros Hab. pose proof (clamp_angle_range b) as [Hb0 Hb1].
  unfold clamp_angle at 1.
  destruct (Qle_bool a 0) eqn:E0; [exact Hb0|].
  destruct (Qle_bool 180 a) eqn:E1.
  - apply Qle_bool_iff in E1. unfold clamp_angle.
    assert (H180 : (180 <= b)%Q) by (eapply Qle_trans; eassumption).
    destruct (Qle_bool b 0) eqn:F0.
    + apply Qle_bool_iff in F0. exfalso.
      assert (H : (180 <= 0)%Q) by (eapply Qle_trans; eassumption).
      exact (H eq_refl).
    + apply Qle_bool_iff in H180. rewrite H180. apply Qle_refl.
  - unfold clamp_angle.
    destruct (Qle_bool b 0) eqn:F0.
    + apply Qle_bool_iff in F0. exfalso.
      assert (H : (a <= 0)%Q) by (eapply Qle_trans; eassumption).
      apply Qle_bool_iff in H. congruence.
    + destruct (Qle_bool 180 b) eqn:F1; [|exact Hab].
      apply Qlt_le_weak, Qnot_le_lt. intros H.
      apply Qle_bool_iff in H. congruence.
Qed.

Lemma pulseUs_mono a b P :
  minPulseUs P <= maxPulseUs P -> (a <= b)%Q ->
  (pulseUs a P <= pulseUs b P)%Q.
Proof.
  intros HP Hab. unfold pulseUs.
  apply Qplus_le_r. apply Qmult_le_compat_r.
  - apply Qmult_le_compat_r; [apply clamp_angle_mono, Hab|discriminate].
  - unfold Qminus. apply (proj1 (Qle_minus_iff _ _)).
    rewrite <- Zle_Qle. exact HP.
Qed.

Lemma pulseUs_between a P :
  (inject_Z (Z.min (minPulseUs P) (maxPulseUs P)) <= pulseUs a P
   <= inject_Z (Z.max (minPulseUs P) (maxPulseUs P)))%Q.
Proof.
  pose proof (clamp_angle_range a) as [H0 H1]. unfold pulseUs.
  set (t := clamp_angle a) in *.
  assert (Hlo : (inject_Z (Z.min (minPulseUs P) (maxPulseUs P))
                 <= inject_Z (minPulseUs P))%Q)
    by (rewrite <- Zle_Qle; lia).
  assert (Hlo' : (inject_Z (Z.min (minPulseUs P) (maxPulseUs P))
                  <= inject_Z (maxPulseUs P))%Q)
    by (rewrite <- Zle_Qle; lia).
  assert (Hhi : (inject_Z (minPulseUs P)
                 <= inject_Z (Z.max (minPulseUs P) (maxPulseUs P)))%Q)
    by (rewrite <- Zle_Qle; lia).
  assert (Hhi' : (inject_Z (maxPulseUs P)
                  <= inject_Z (Z.max (minPulseUs P) (maxPulseUs P)))%Q)
    by (rewrite <- Zle_Qle; lia).
  set (m := inject_Z (minPulseUs P)) in *.
  set (x := inject_Z (maxPulseUs P)) in *.
  set (lo := inject_Z (Z.min (minPulseUs P) (maxPulseUs P))) in *.
  set (hi := inject_Z (Z.max (minPulseUs P) (maxPulseUs P))) in *.
  assert (Hu : (0 <= t / 180 <= 1)%Q).
  { split.
    - apply Qle_shift_div_l; [reflexivity|lra].
    - apply Qle_shift_div_r; [reflexivity|lra]. }
  set (u := (t / 180)%Q) in *. destruct Hu as [Hu0 Hu1].
  assert (A1 : (0 <= (1 - u) * (m - lo))%Q)
    by (apply Qmult_le_0_compat; lra).
  assert (A2 : (0 <= u * (x - lo))%Q) by (apply Qmult_le_0_compat; lra).
  assert (A3 : (0 <= (1 - u) * (hi - m))%Q)
    by (apply Qmult_le_0_compat; lra).
  assert (A4 : (0 <= u * (hi - x))%Q) by (apply Qmult_le_0_compat; lra).
  split; lra.
Qed.

Lemma Qfloor_counts m : Qfloor (inject_Z m * countsPerUs) = m * 4096 / 20000.
Proof. reflexivity. Qed.

Lemma encode_le a b P :
  (pulseUs a P <= pulseUs b P)%Q -> encode a P <= encode b P.
Proof.
  intros H. unfold encode. apply Qfloor_resp_le.
  apply Qmult_le_compat_r; [exact H|discriminate].
Qed.

Lemma encode_at_0 P : encode 0 P = minPulseUs P * 4096 / 20000.
Proof.
  unfold encode. rewrite <- Qfloor_counts. apply Qfloor_comp.
  unfold pulseUs. change (clamp_angle 0) with 0%Q. field.
Qed.

Lemma encode_at_180 P : encode 180 P = maxPulseUs P * 4096 / 20000.
Proof.
  unfold encode. rewrite <- Qfloor_counts. apply Qfloor_comp.
  unfold pulseUs. change (clamp_angle 180) with 180%Q. field.
Qed.

Lemma encode_range a P :
  within_bounds P -> 102 <= encode a P <= 512.
Proof.
  intros [Hmin Hmax]. pose proof (pulseUs_between a P) as [Hlo Hhi].
  assert (H500 : (inject_Z 500 <= pulseUs a P)%Q).
  { eapply Qle_trans; [|exact Hlo]. rewrite <- Zle_Qle. lia. }
  assert (H2500 : (pulseUs a P <= inject_Z 2500)%Q).
  { eapply Qle_trans; [exact Hhi|]. rewrite <- Zle_Qle. lia. }
  unfold encode. split.
  - change 102 with (Qfloor (inject_Z 500 * countsPerUs)).
    apply Qfloor_resp_le. apply Qmult_le_compat_r; [exact H500|discriminate].
  - change 512 with (Qfloor (inject_Z 2500 * countsPerUs)).
    apply Qfloor_resp_le. apply Qmult_le_compat_r; [exact H2500|discriminate].
Qed.

Lemma encode_clamps_low a P : (a <= 0)%Q -> encode a P = encode 0 P.
Proof.
  intros H. unfold encode, pulseUs, clamp_angle.
  apply Qle_bool_iff in H. rewrite H. reflexivity.
Qed.

Lemma profile_of_valid r : valid_profile (profile_of r).
Proof. destruct r; unfold valid_profile, within_bounds; cbn; lia. Qed.

(** C6.  For each of the six profiles the encoder maps angle 0 to
    floor(minPulseUs * 4096 / 20000) and angle 180 to
    floor(maxPulseUs * 4096 / 20000); for the 1000-2000 us profile these
    are 204 and 409. *)
Theorem encode_endpoints :
  (forall r : PulseRange,
     encode 0 (profile_of r) = minPulseUs (profile_of r) * 4096 / 20000 /\
     encode 180 (profile_of r) = maxPulseUs (profile_of r) * 4096 / 20000) /\
  encode 0 (profile_of R1000_2000uS) = 204 /\
  encode 180 (profile_of R1000_2000uS) = 409.
Proof.
  split; [|split; reflexivity].
  intros r. split; [apply encode_at_0|apply encode_at_180].
Qed.

(** C7.  For a valid profile the encoder is monotonically non-decreasing in
    the angle over [0, 180], and for a profile whose bounds lie within
    500-2500 us and an angle in [0, 180] its result is neither negative nor
    4096 or more. *)
Theorem encode_monotone_and_in_range :
  (forall (P : PulseProfile) (A1 A2 : Q),
     valid_profile P ->
     (0 <= A1)%Q -> (A1 <= A2)%Q -> (A2 <= 180)%Q ->
     encode A1 P <= encode A2 P) /\
  (forall (P : PulseProfile) (A : Q),
     within_bounds P -> (0 <= A <= 180)%Q ->
     0 <= encode A P < 4096).
Proof.
  split.
  - intros P A1 A2 [Hlt _] _ H12 _.
    apply encode_le, pulseUs_mono; [lia|exact H12].
  - intros P A HP _. pose proof (encode_range A P HP). lia.
Qed.

Lemma encode_monotone_and_in_range_witness :
  encode 30 (profile_of R1000_2000uS) <= encode 90 (profile_of R1000_2000uS)
  /\ 0 <= encode 90 (profile_of R1000_2000uS) < 4096.
Proof.
  destruct encode_monotone_and_in_range as [Hmono Hrange]. split.
  - apply (Hmono (profile_of R1000_2000uS) 30%Q 90%Q).
    + unfold valid_profile, within_bounds. cbn. lia.
    + vm_compute. discriminate.
    + vm_compute. discriminate.
    + vm_compute. discriminate.
  - apply (Hrange (profile_of R1000_2000uS) 90%Q).
    + unfold within_bounds. cbn. lia.
    + split; vm_compute; discriminate.
Defined.

(** ** Per-channel profiles *)

Lemma profile_for_set_same channel profile c :
  profile_for (setPulseProfile channel profile c) channel = profile.
Proof.
  unfold profile_for, setPulseProfile. cbn [profiles].
  rewrite lookup_insert_eq. reflexivity.
Qed.

Lemma profile_for_set_other channel profile c other :
  other <> channel ->
  profile_for (setPulseProfile channel profile c) other = profile_for c other.
Proof.
  intros Hne. unfold profile_for, setPulseProfile. cbn [profiles].
  rewrite lookup_insert_ne; [reflexivity|].
  intros H. apply Hne. symmetry. apply Servos_value_inj, H.
Qed.

(** C10.  [setPulseProfile channel profile] records [profile] for
    [channel] and does nothing else: the chip state, and with it the log of
    bus traffic and the initialisation flag, is unchanged, the profile of
    every other channel is unchanged, and the call is defined for each of
    the six profiles, all of which are valid. *)
Theorem setPulseProfile_records_profile
    (channel : Servos) (profile : PulseRange) (c : controller) :
  let c' := setPulseProfile channel profile c in
  profile_for c' channel = profile /\
  chip c' = chip c /\
  trace (chip c') = trace (chip c) /\
  profiles c' = <[Servos_value channel := profile]> (profiles c) /\
  (forall other, other <> channel -> profile_for c' other = profile_for c other) /\
  valid_profile (profile_of profile).
Proof.
  cbv zeta. split; [apply profile_for_set_same|].
  repeat (split; [reflexivity|]).
  split; [intros; apply profile_for_set_other; assumption|].
  apply profile_of_valid.
Qed.

Lemma setPulseProfile_records_profile_witness :
  profile_for (setPulseProfile Servo2 R600_2400uS new_controller) Servo2
  = R600_2400uS /\
  profile_for (setPulseProfile Servo2 R600_2400uS new_controller) Servo5
  = R1000_2000uS.
Proof.
  destruct (setPulseProfile_records_profile Servo2 R600_2400uS new_controller)
    as (Hsame & _ & _ & _ & Hother & _).
  split; [exact Hsame|].
  rewrite (Hother Servo5); [reflexivity|discriminate].
Defined.

(** * Further properties of the source *)

(** ** The chip's answers and the traffic of the driver *)

Lemma readback_byte device tr : 0 <= readback device tr < 256.
Proof. unfold readback. apply Z.mod_pos_bound. reflexivity. Qed.

Lemma bus_writes_app tr1 tr2 :
  bus_writes (tr1 ++ tr2) = bus_writes tr1 ++ bus_writes tr2.
Proof. apply List.filter_app. Qed.

Lemma writes_to_app reg tr1 tr2 :
  writes_to reg (tr1 ++ tr2) = writes_to reg tr1 ++ writes_to reg tr2.
Proof. unfold writes_to. rewrite List.filter_app. apply omap_app. Qed.

Lemma servoWrite_cases device s d st :
  exec (servoWrite device s d) st =
  if PCA9685_init st then st
  else {| PCA9685_init := true;
          trace := trace st
                   ++ initialisation_events (readback device (trace st)) |}.
Proof.
  unfold exec. destruct (PCA9685_init st) eqn:E.
  - rewrite servoWrite_ready by assumption. reflexivity.
  - rewrite servoWrite_uninitialised, initialisation_spec by assumption.
    reflexivity.
Qed.

Lemma run_first device s d rest st :
  run device ((s, d) :: rest) st = exec (servoWrite device s d) st.
Proof. cbn [run]. apply run_ready, servoWrite_sets_flag. Qed.

(** X2.  What the chip answers to the read-back has no influence on what
    [servoWrite] does: with two different chips the two logs are the same
    effect for effect once the value read and the value displayed are
    blanked, so everything sent to the chip (buffer writes and one-byte
    writes alike), the pause and the flag are the same.  The answer only
    reaches the display: when the call initialises, the one value shown is
    the one value read, a byte. *)
Theorem servoWrite_independent_of_readback
    (device1 device2 : list event -> Z)
    (Servo : Servos) (degrees : Q) (st : state) :
  let st1 := exec (servoWrite device1 Servo degrees) st in
  let st2 := exec (servoWrite device2 Servo degrees) st in
  map mask_answer (trace st1) = map mask_answer (trace st2) /\
  sent_to_chip (trace st1) = sent_to_chip (trace st2) /\
  bus_writes (trace st1) = bus_writes (trace st2) /\
  PCA9685_init st1 = PCA9685_init st2 /\
  length (trace st1) = length (trace st2) /\
  (PCA9685_init st = false ->
   read_values (trace st1)
     = read_values (trace st) ++ [readback device1 (trace st)] /\
   shown_values (trace st1)
     = shown_values (trace st) ++ [readback device1 (trace st)] /\
   0 <= readback device1 (trace st) < 256).
Proof.
  cbv zeta. rewrite !servoWrite_cases.
  destruct (PCA9685_init st) eqn:E.
  - repeat split; try reflexivity; discriminate.
  - cbn [trace PCA9685_init].
    rewrite !bus_writes_app, !length_app, !map_app.
    unfold sent_to_chip. rewrite !List.filter_app.
    repeat split; try reflexivity.
    + unfold read_values. rewrite omap_app. reflexivity.
    + unfold shown_values. rewrite omap_app. reflexivity.
    + apply readback_byte.
    + apply readback_byte.
Qed.

Lemma servoWrite_independent_of_readback_witness :
  shown_values
    (trace (exec (servoWrite (fun _ => 0x1234) Servo4 10) startup))
  = [0x34].
Proof.
  destruct (servoWrite_independent_of_readback
              (fun _ => 0x1234) sample_device Servo4 10 startup)
    as (_ & _ & _ & _ & _ & H).
  destruct (H eq_refl) as (_ & Hshown & _). exact Hshown.
Defined.

Lemma initialisation_events_well_formed data :
  0 <= data < 256 ->
  forallb well_formed_event (initialisation_events data) = true.
Proof.
  intros H. cbn.
  assert (Hb : is_byte data = true).
  { unfold is_byte. apply andb_true_intro.
    split; [apply Z.leb_le|apply Z.ltb_lt]; lia. }
  rewrite Hb. reflexivity.
Qed.

(** X3.  The driver keeps its traffic in shape.  If every effect in the
    log so far is well formed, so is every effect after any sequence of
    [servoWrite] calls: all bus traffic goes to [CHIP_ADDRESS], every
    buffer write is two bytes and addresses the pre-scaler, one of the
    four broadcast registers or the mode 1 register (never a channel
    register, [REG_MODE2], a sub-address or the all-call register), data
    bytes are in [0, 255], and the flag is never assigned [false]. *)
Theorem run_keeps_traffic_well_formed
    (device : list event -> Z) (calls : list (Servos * Q)) (st : state) :
  forallb well_formed_event (trace st) = true ->
  let tr := trace (run device calls st) in
  forallb well_formed_event tr = true /\
  Forall (fun reg => writes_to reg tr = writes_to reg (trace st))
         untouched_registers /\
  channel_writes tr = channel_writes (trace st).
Proof.
  intros Hwf. cbv zeta.
  destruct calls as [|[s d] rest]; [cbn [run]; repeat split; auto|].
  - repeat constructor.
  - rewrite run_first, servoWrite_cases.
    destruct (PCA9685_init st); [repeat split; auto; repeat constructor|].
    cbn [trace]. split; [|split].
    + rewrite forallb_app, Hwf.
      rewrite initialisation_events_well_formed by apply readback_byte.
      reflexivity.
    + repeat constructor; rewrite writes_to_app; apply app_nil_r.
    + unfold channel_writes. rewrite List.filter_app. apply app_nil_r.
Qed.

Lemma run_keeps_traffic_well_formed_witness :
  forallb well_formed_event
    (trace (run sample_device [(Servo9, 12%Q); (Servo2, 170%Q)] startup))
  = true.
Proof.
  exact (proj1 (run_keeps_traffic_well_formed sample_device
                  [(Servo9, 12%Q); (Servo2, 170%Q)] startup eq_refl)).
Defined.

(** X4.  Of a sequence of [servoWrite] calls only the first has any
    effect, from whatever state the sequence starts, and which channel and
    angle each call names makes no difference: the sequence leaves the
    state the first call leaves, and a sequence splits into two run one
    after the other. *)
Theorem run_only_first_call_matters
    (device : list event -> Z) (st : state)
    (Servo : Servos) (degrees : Q) (rest : list (Servos * Q)) :
  run device ((Servo, degrees) :: rest) st
    = exec (servoWrite device Servo degrees) st /\
  (forall Servo' degrees',
     exec (servoWrite device Servo' degrees')
          (exec (servoWrite device Servo degrees) st)
     = exec (servoWrite device Servo degrees) st) /\
  (forall Servo' degrees',
     exec (servoWrite device Servo' degrees') st
     = exec (servoWrite device Servo degrees) st) /\
  (forall calls1 calls2,
     run device (calls1 ++ calls2) st
     = run device calls2 (run device calls1 st)).
Proof.
  split; [apply run_first|]. split; [|split].
  - intros s' d'. rewrite (servoWrite_cases device s' d').
    rewrite servoWrite_sets_flag. reflexivity.
  - intros s' d'. rewrite !servoWrite_cases. reflexivity.
  - intros calls1. revert st.
    induction calls1 as [|[s d] calls1 IH]; intros st0 calls2;
      [reflexivity|].
    cbn [app run]. apply IH.
Qed.

(** X5.  Whatever was written to the chip before, when [servoWrite] finds
    the flag false the values last written are the ones of the
    initialisation: 0x1E in the pre-scaler, the count 0 in the broadcast
    on registers and 0x01 in the mode 1 register. *)
Theorem servoWrite_last_written_values
    (device : list event -> Z) (Servo : Servos) (degrees : Q) (st : state) :
  PCA9685_init st = false ->
  let tr := trace (exec (servoWrite device Servo degrees) st) in
  last (writes_to REG_PRE_SCALE tr) = Some PWM_FREQUENCY /\
  programmed_count REG_ALL_LED_ON_L REG_ALL_LED_ON_H tr = Some 0 /\
  last (writes_to REG_MODE1 tr) = Some 1.
Proof.
  intros Hflag. cbv zeta. rewrite servoWrite_cases, Hflag. cbn [trace].
  unfold programmed_count. rewrite !writes_to_app.
  change (writes_to REG_PRE_SCALE (initialisation_events ?d))
    with [PWM_FREQUENCY].
  change (writes_to REG_ALL_LED_ON_L (initialisation_events ?d)) with [0].
  change (writes_to REG_ALL_LED_ON_H (initialisation_events ?d)) with [0].
  change (writes_to REG_MODE1 (initialisation_events ?d)) with [1].
  rewrite !last_snoc. repeat split; reflexivity.
Qed.

Lemma servoWrite_last_written_values_witness :
  let st := {| PCA9685_init := false;
               trace := [I2cWriteBuffer CHIP_ADDRESS [REG_PRE_SCALE; 0x79]
                                        false;
                         I2cWriteBuffer CHIP_ADDRESS [REG_ALL_LED_ON_L; 0x10]
                                        false] |} in
  last (writes_to REG_PRE_SCALE
          (trace (exec (servoWrite sample_device Servo1 0) st)))
  = Some PWM_FREQUENCY.
Proof.
  cbv zeta.
  exact (proj1 (servoWrite_last_written_values sample_device Servo1 0
                  {| PCA9685_init := false;
                     trace := [I2cWriteBuffer CHIP_ADDRESS
                                 [REG_PRE_SCALE; 0x79] false;
                               I2cWriteBuffer CHIP_ADDRESS
                                 [REG_ALL_LED_ON_L; 0x10] false] |}
                  eq_refl)).
Defined.

(** ** The enumerations *)

(** X6.  The values of [Servos] are exactly the multiples of four from
    0x08 to 0x44, they grow with the position in the declaration, each
    fits in a byte together with its successor, and neither a value nor
    its successor is one of the registers the source names (mode,
    sub-address, all-call, broadcast, pre-scaler). *)
Theorem Servos_values_characterised :
  (forall v : Z,
     (exists s, Servos_value s = v) <-> 0x08 <= v <= 0x44 /\ v mod 4 = 0) /\
  (forall s1 s2,
     Servos_index s1 < Servos_index s2 <->
     Servos_value s1 < Servos_value s2) /\
  (forall s,
     is_byte (Servos_value s) = true /\
     is_byte (Servos_value s + 1) = true /\
     ~ In (Servos_value s) named_registers /\
     ~ In (Servos_value s + 1) named_registers).
Proof.
  split; [|split].
  - intros v. split.
    + intros [s <-]. rewrite Servos_value_stride.
      pose proof (Servos_index_range s). split; [lia|].
      replace (8 + 4 * Servos_index s) with (0 + (2 + Servos_index s) * 4)
        by lia.
      rewrite Z.mod_add by discriminate. reflexivity.
    + intros [Hr Hm].
      assert (Hv : v = 4 * (v / 4)).
      { pose proof (Z.div_mod v 4 ltac:(discriminate)). lia. }
      assert (Hk : 2 <= v / 4 <= 17) by lia.
      assert (Hcases :
        v / 4 = 2 \/ v / 4 = 3 \/ v / 4 = 4 \/ v / 4 = 5 \/ v / 4 = 6 \/
        v / 4 = 7 \/ v / 4 = 8 \/ v / 4 = 9 \/ v / 4 = 10 \/ v / 4 = 11 \/
        v / 4 = 12 \/ v / 4 = 13 \/ v / 4 = 14 \/ v / 4 = 15 \/
        v / 4 = 16 \/ v / 4 = 17) by lia.
      rewrite Hv.
      repeat (destruct Hcases as [-> | Hcases]);
        [ exists Servo1 | exists Servo2 | exists Servo3 | exists Servo4
        | exists Servo5 | exists Servo6 | exists Servo7 | exists Servo8
        | exists Servo9 | exists Servo10 | exists Servo11 | exists Servo12
        | exists Servo13 | exists Servo14 | exists Servo15 | ];
        try reflexivity.
      rewrite Hcases. exists Servo16. reflexivity.
  - intros s1 s2. rewrite !Servos_value_stride. lia.
  - intros s. destruct s; cbn; repeat split; try reflexivity;
      intros H; repeat (destruct H as [H | H]; [discriminate H|]);
      exact H.
Qed.

(** X7.  The values of [PulseRange] are exactly 1 to 6, one enumerator
    each, and the only board address offered, [Board1], is the chip
    address every transaction of the driver uses. *)
Theorem PulseRange_values_characterised :
  (forall v : Z, (exists r, PulseRange_value r = v) <-> 1 <= v <= 6) /\
  (forall r1 r2, PulseRange_value r1 = PulseRange_value r2 -> r1 = r2) /\
  (forall b, BoardAddresses_value b = CHIP_ADDRESS).
Proof.
  split; [|split].
  - intros v. split.
    + intros [r <-]. destruct r; cbn; lia.
    + intros Hv.
      assert (Hcases : v = 1 \/ v = 2 \/ v = 3 \/ v = 4 \/ v = 5 \/ v = 6)
        by lia.
      destruct Hcases as [-> | [-> | [-> | [-> | [-> | ->]]]]];
        [ exists R500_2500uS | exists R600_2400uS | exists R700_2300uS
        | exists R800_2200uS | exists R900_2100uS | exists R1000_2000uS ];
        reflexivity.
  - intros r1 r2. destruct r1, r2; intros H; try reflexivity; discriminate H.
  - intros b. destruct b. reflexivity.
Qed.

Lemma PulseRange_values_characterised_witness :
  1 <= 3 <= 6 /\ exists r, PulseRange_value r = 3.
Proof.
  destruct PulseRange_values_characterised as (Himg & _ & _).
  assert (H : 1 <= 3 <= 6) by lia.
  split; [exact H|]. exact (proj2 (Himg 3) H).
Defined.

Lemma Servos_values_characterised_witness :
  (0x08 <= 0x2C <= 0x44 /\ 0x2C mod 4 = 0) /\
  exists s, Servos_value s = 0x2C.
Proof.
  destruct Servos_values_characterised as (Himg & _).
  assert (H : 0x08 <= 0x2C <= 0x44 /\ 0x2C mod 4 = 0)
    by (split; [lia|reflexivity]).
  split; [exact H|]. exact (proj2 (Himg 0x2C) H).
Defined.

(** ** [initialisation] called on its own *)

(** X8.  [initialisation] has no guard of its own: it does not look at the
    flag, so each direct call repeats the six register writes and the
    read-back, and [n] calls in a row issue [6 * n] buffer writes and [n]
    reads and leave the flag true; the guard against repetition is the test
    in [servoWrite] alone. *)
Theorem initialisation_is_unguarded
    (device : list event -> Z) (n : nat) (st : state) :
  let st' := Nat.iter n (exec (initialisation device)) st in
  length (bus_writes (trace st'))
    = (length (bus_writes (trace st)) + 6 * n)%nat /\
  length (read_values (trace st'))
    = (length (read_values (trace st)) + n)%nat /\
  (n <> 0%nat -> PCA9685_init st' = true).
Proof.
  cbv zeta. induction n as [|n (IHw & IHr & IHf)].
  - change (Nat.iter 0 (exec (initialisation device)) st) with st.
    split; [lia|]. split; [lia|]. congruence.
  - rewrite Nat.iter_succ.
    unfold exec at 1 3 5. rewrite initialisation_spec.
    cbn [snd trace PCA9685_init].
    rewrite bus_writes_app, length_app, IHw.
    unfold read_values at 1. rewrite omap_app, length_app.
    fold (read_values (trace (Nat.iter n (exec (initialisation device)) st))).
    rewrite IHr. cbn [initialisation_events bus_writes List.filter
                      is_bus_write omap length app].
    split; [lia|]. split; [cbn; lia|]. reflexivity.
Qed.

Lemma initialisation_is_unguarded_witness :
  2%nat <> 0%nat /\
  PCA9685_init
    (Nat.iter 2 (exec (initialisation sample_device)) startup) = true.
Proof.
  assert (H : 2%nat <> 0%nat) by discriminate.
  split; [exact H|].
  exact (proj2 (proj2 (initialisation_is_unguarded sample_device 2 startup))
           H).
Defined.
